(** * dbt schema tester: a shallow embedding of [dbt/schema_tester.py]

    The module compiles data-quality assertions to SQL, runs them through a
    psycopg2 cursor, and records run results with one bulk insert.  The
    embedding keeps the Python control flow: every method is a computation in
    a state-and-exception monad over a [World] that holds the database, the
    wall clock, the interpreter's builtin names and the trace of observable
    events (handles, cursors, statements, log records, prints, yields).

    Conventions of the embedding:
    - the database engine is a parameter, [db_execute], a step function on an
      abstract database state;
    - clock readings are exact tick counts (integers); a datetime and the
      float [execution_time] are carried by their printed forms;
    - comparisons follow Python 3 (ordering a non-number against a number
      raises [TypeError]);
    - the SQL text of the referential-integrity assertion is given its
      meaning under SQL's three-valued logic. *)

From Stdlib Require Import ZArith String Ascii List Bool Lia DecimalString.
Import ListNotations.
Open Scope string_scope.
Open Scope Z_scope.

(** ** Python values *)

(** The values that flow through the module: [None], integers, strings, and
    any other object, which the module only passes along (identified by the
    name it is bound to). *)
Inductive pyval : Type :=
| PNone
| PInt (n : Z)
| PStr (s : string)
| PObj (id : string).

Definition string_of_Z (n : Z) : string := NilZero.string_of_int (Z.to_int n).

(** [str(v)], as [str.format] and [print] render a value. *)
Definition py_str (v : pyval) : string :=
  match v with
  | PNone => "None"
  | PInt n => string_of_Z n
  | PStr s => s
  | PObj id => id
  end.

(** [v == 0] *)
Definition py_eq_zero (v : pyval) : bool :=
  match v with
  | PInt n => n =? 0
  | _ => false
  end.

(** [v == "ERROR"] *)
Definition py_eq_str (v : pyval) (s : string) : bool :=
  match v with
  | PStr s' => String.eqb s' s
  | _ => false
  end.

(** ** Exceptions *)

(** [e.diag] of a psycopg2 error; [message_primary] is a string or [None]. *)
Record Diagnostics : Type := { message_primary : pyval }.

Inductive exn_kind : Type :=
| ProgrammingError (diag : Diagnostics)   (* psycopg2.ProgrammingError *)
| OtherException (cls : string)           (* any other exception class *)
| RuntimeError (msg : string)
| TypeError (msg : string)
| NameError (name : string).

(** An exception object: its class and payload, and the [model] attribute
    that [execute_query] sets before re-raising. *)
Record exn : Type := { kind : exn_kind; model_attr : option pyval }.

Definition new_exn (k : exn_kind) : exn := {| kind := k; model_attr := None |}.

(** [e.model = model] *)
Definition set_model (e : exn) (model : pyval) : exn :=
  {| kind := kind e; model_attr := Some model |}.

Inductive result (A : Type) : Type :=
| Ret (a : A)
| Raise (e : exn).
Arguments Ret {A} a.
Arguments Raise {A} e.

(** ** The database engine, as seen through a cursor *)

Definition row : Type := list pyval.

(** What [cursor.execute(sql)] does: it completes, leaving a result set and a
    status message on the cursor, or it raises. *)
Inductive exec_outcome : Type :=
| ExecOk (rows : list row) (statusmessage : string)
| ExecRaise (e : exn_kind).

(** State of a cursor after a successful [execute]. *)
Record Cursor : Type := { pending : list row; cursor_status : string }.

(** ** Observable events *)

Inductive log_level : Type := DEBUG | ERROR | EXCEPTION.

(** [str(datetime)]: a datetime is carried by its printed form. *)
Record datetime : Type := { datetime_str : string }.

Inductive event : Type :=
| EvGetHandle                     (* target.get_handle().__enter__() *)
| EvHandleExit (committed : bool) (* connection __exit__: commit or rollback *)
| EvCursor                        (* handle.cursor().__enter__() *)
| EvCursorExit                    (* cursor __exit__: close *)
| EvExecute (sql : string)        (* cursor.execute(sql) *)
| EvFetchone                      (* cursor.fetchone() *)
| EvTime (t : Z)                  (* time.time() *)
| EvNow (t : datetime)            (* datetime.datetime.now() *)
| EvLog (level : log_level) (fmt : string) (args : list pyval)
| EvPrint (line : string)
| EvYield (b : bool).

(** ** Collaborators *)

(** [dbt.targets] target: the active schema (and the connection provider,
    whose use is recorded as events). *)
Record Target : Type := { schema : string }.

(** [self.project]; [run_environment()] resolved to its target. *)
Record Project : Type := { run_environment : Target }.

(** A rendered schema test: [schema_test.render()] is its SQL. *)
Record SchemaTest : Type := { render : string }.

(** [res.model] *)
Record Model : Type := { name : string }.

(** One element of [run_model_results].  [execution_time] is a float, carried
    by its printed form. *)
Record RunModelResult : Type := {
  model : Model;
  status : pyval;
  errored : bool;
  skipped : bool;
  execution_time : string
}.

Record SchemaTester : Type := {
  project : Project;
  test_started_at : datetime
}.

(** ** Result rows *)

Module ResultRow.

(** The keyword arguments of one [value_template.format(...)] call: the
    columns of one row of [dbt_test_results], as the recorder passes them. *)
Record t : Type := {
  tested_at : datetime;
  model_name : string;
  errored : string;
  skipped : string;
  failed : string;
  count_failures : pyval;
  execution_time : string
}.

End ResultRow.

(** [type(v).__name__] *)
Definition type_name (v : pyval) : string :=
  match v with
  | PNone => "NoneType"
  | PInt _ => "int"
  | PStr _ => "str"
  | PObj _ => "object"
  end.

(** [v > 0], with the ordering of Python 3: only numbers compare with a
    number, any other operand raises [TypeError]. *)
Definition py_gt_zero (v : pyval) : result bool :=
  match v with
  | PInt n => Ret (0 <? n)
  | _ => Raise (new_exn
                  (TypeError ("'>' not supported between instances of '"
                                ++ type_name v ++ "' and 'int'")))
  end.

(** ["true" if b else "false"] *)
Definition sql_bool (b : bool) : string := if b then "true" else "false".

(** ** Statement templates *)

Definition DDL_TEST_RESULT_CREATE (schema : string) : string :=
"
create table if not exists " ++ schema ++ ".dbt_test_results (
    tested_at timestamp without time zone,
    model_name text,
    errored bool,
    skipped bool,
    failed bool,
    count_failures integer,
    execution_time double precision
);
".

Definition INSERT_TEST_RESULT_TEMPLATE (values schema : string) : string :=
"
insert into " ++ schema ++ ".dbt_test_results
    (tested_at, model_name, errored, skipped, failed, count_failures, execution_time)
values
    " ++ values ++ "
".

(** [value_template.format(...)], from its keyword arguments. *)
Definition value_template (a : ResultRow.t) : string :=
  "('" ++ datetime_str (ResultRow.tested_at a) ++ "', '" ++ ResultRow.model_name a
    ++ "', " ++ ResultRow.errored a ++ ", " ++ ResultRow.skipped a ++ ", " ++ ResultRow.failed a
    ++ ", " ++ py_str (ResultRow.count_failures a) ++ ", " ++ ResultRow.execution_time a
    ++ ")".

(** The separator of [",\n".join(values)]. *)
Definition values_separator : string := ",
".

Definition double_quote : string := String "034"%char EmptyString.

Definition QUERY_VALIDATE_REFERENTIAL_INTEGRITY
    (schema parent_table parent_field child_table child_field : string)
  : string :=
"
with parent as (
  select " ++ parent_field ++ " as id
  from " ++ double_quote ++ schema ++ double_quote ++ "."
         ++ double_quote ++ parent_table ++ double_quote ++ "
), child as (
  select " ++ child_field ++ " as id
  from " ++ double_quote ++ schema ++ double_quote ++ "."
         ++ double_quote ++ child_table ++ double_quote ++ "
)
select count(*) from child
where id not in (select id from parent) and id is not null
".

(** ** SQL semantics of the referential-integrity query

    The query is code of the module too; its meaning is given with SQL's
    three-valued logic, over the two columns it reads. *)

Module Sql.

(** A column value; [None] is SQL NULL. *)
Definition value : Type := option Z.

Inductive truth : Type := TRUE | FALSE | UNKNOWN.

(** [a = b] *)
Definition eq3 (a b : value) : truth :=
  match a, b with
  | Some x, Some y => if x =? y then TRUE else FALSE
  | _, _ => UNKNOWN
  end.

Definition not3 (p : truth) : truth :=
  match p with
  | TRUE => FALSE
  | FALSE => TRUE
  | UNKNOWN => UNKNOWN
  end.

Definition and3 (p q : truth) : truth :=
  match p, q with
  | FALSE, _ | _, FALSE => FALSE
  | TRUE, TRUE => TRUE
  | _, _ => UNKNOWN
  end.

Definition or3 (p q : truth) : truth :=
  match p, q with
  | TRUE, _ | _, TRUE => TRUE
  | FALSE, FALSE => FALSE
  | _, _ => UNKNOWN
  end.

(** [x in (select ...)]: the disjunction of [x = y] over the subquery's rows. *)
Definition in3 (x : value) (ys : list value) : truth :=
  fold_right (fun y acc => or3 (eq3 x y) acc) FALSE ys.

(** [x is not null] *)
Definition is_not_null (x : value) : truth :=
  match x with
  | Some _ => TRUE
  | None => FALSE
  end.

(** A [where] clause keeps the rows on which its predicate is true. *)
Definition keeps (p : truth) : bool :=
  match p with
  | TRUE => true
  | _ => false
  end.

End Sql.

(** The referential-integrity query over the values of [parent_field] in the
    parent table and of [child_field] in the child table, one per row:
    [select count( * ) from child
     where id not in (select id from parent) and id is not null]. *)
Definition referential_integrity_count (parent child : list Sql.value) : Z :=
  Z.of_nat
    (length
       (filter
          (fun id =>
             Sql.keeps (Sql.and3 (Sql.not3 (Sql.in3 id parent))
                                 (Sql.is_not_null id)))
          child)).

(** [p] is the non-null value [x]. *)
Definition holds_value (x : Z) (p : Sql.value) : bool :=
  match p with
  | Some y => x =? y
  | None => false
  end.

(** The count the specification words: the child rows whose value is non-null
    and absent from the parent values. *)
Definition spec_referential_violations (parent child : list Sql.value) : Z :=
  Z.of_nat
    (length
       (filter
          (fun id =>
             match id with
             | Some x => negb (existsb (holds_value x) parent)
             | None => false
             end)
          child)).

(** ** The other assertion queries *)

Definition QUERY_VALIDATE_NOT_NULL (field schema table : string) : string :=
"
with validation as (
  select " ++ field ++ " as f
  from " ++ double_quote ++ schema ++ double_quote ++ "."
         ++ double_quote ++ table ++ double_quote ++ "
)
select count(*) from validation where f is null
".

Definition QUERY_VALIDATE_UNIQUE (field schema table : string) : string :=
"
with validation as (
  select " ++ field ++ " as f
  from " ++ double_quote ++ schema ++ double_quote ++ "."
         ++ double_quote ++ table ++ double_quote ++ "
),
validation_errors as (
    select f from validation group by f having count(*) > 1
)
select count(*) from validation_errors
".

Definition QUERY_VALIDATE_ACCEPTED_VALUES
    (field schema table values_csv : string) : string :=
"
with all_values as (
  select distinct " ++ field ++ " as f
  from " ++ double_quote ++ schema ++ double_quote ++ "."
         ++ double_quote ++ table ++ double_quote ++ "
),
validation_errors as (
    select f from all_values where f not in (" ++ values_csv ++ ")
)
select count(*) from validation_errors
".

(** Equality of column values as [group by] and [distinct] see it: NULLs
    fall together. *)
Definition value_eq_dec (a b : Sql.value) : {a = b} + {a <> b}.
Proof.
  decide equality. apply Z.eq_dec.
Defined.

(** [x is null] *)
Definition is_null (x : Sql.value) : Sql.truth :=
  match x with
  | Some _ => Sql.FALSE
  | None => Sql.TRUE
  end.

(** The not-null query over the values of [field], one per row:
    [select count( * ) from validation where f is null]. *)
Definition not_null_count (column : list Sql.value) : Z :=
  Z.of_nat (length (filter (fun f => Sql.keeps (is_null f)) column)).

(** The unique query: one group per distinct value of [field], kept by
    [having count( * ) > 1]; the result counts the groups kept. *)
Definition unique_count (column : list Sql.value) : Z :=
  Z.of_nat
    (length
       (filter (fun g => (1 <? count_occ value_eq_dec column g)%nat)
          (nodup value_eq_dec column))).

(** The accepted-values query: the distinct values of [field] that satisfy
    [f not in (values_csv)], counted.  [accepted] are the values that
    [values_csv] lists; SQL requires at least one. *)
Definition accepted_values_count (column accepted : list Sql.value) : Z :=
  Z.of_nat
    (length
       (filter (fun f => Sql.keeps (Sql.not3 (Sql.in3 f accepted)))
          (nodup value_eq_dec column))).

(** ** Module-level names *)

(** The names bound at module level by [schema_tester.py], in source order. *)
Definition module_globals : list string :=
  [ "os"; "dbt"; "psycopg2"; "logging"; "time"; "datetime";
    "QUERY_VALIDATE_NOT_NULL"; "QUERY_VALIDATE_UNIQUE";
    "QUERY_VALIDATE_ACCEPTED_VALUES"; "QUERY_VALIDATE_REFERENTIAL_INTEGRITY";
    "DDL_TEST_RESULT_CREATE"; "INSERT_TEST_RESULT_TEMPLATE"; "SchemaTester" ].

Definition name_in (x : string) (l : list string) : bool :=
  existsb (String.eqb x) l.

(** ** A journal engine

    A concrete engine used to run the model: its state is the journal of the
    statements that completed; whether a statement completes is decided by
    [respond] from the statement text alone, and a statement that raises
    leaves the journal as it was. *)
Definition journal_execute (respond : string -> exec_outcome)
    (d : list string) (sql : string) : list string * exec_outcome :=
  match respond sql with
  | ExecOk rows st => ((d ++ [sql])%list, ExecOk rows st)
  | ExecRaise k => (d, ExecRaise k)
  end.

Section Model.

Context {DB : Type}.
Variable db_execute : DB -> string -> DB * exec_outcome.

(** ** The world *)

Record World : Type := {
  db : DB;                    (* database state *)
  clock : nat -> Z;           (* successive readings of time.time() *)
  now : nat -> datetime;      (* successive readings of datetime.now() *)
  ticks : nat;                (* clock readings taken so far *)
  builtins : list string;     (* names bound in the builtins namespace *)
  trace : list event          (* events so far, oldest first *)
}.

Definition emit_event (e : event) (w : World) : World :=
  {| db := db w; clock := clock w; now := now w; ticks := ticks w;
     builtins := builtins w; trace := (trace w ++ [e])%list |}.

Definition tick (w : World) : World :=
  {| db := db w; clock := clock w; now := now w; ticks := S (ticks w);
     builtins := builtins w; trace := trace w |}.

Definition set_db (d : DB) (w : World) : World :=
  {| db := d; clock := clock w; now := now w; ticks := ticks w;
     builtins := builtins w; trace := trace w |}.

(** ** The monad *)

Definition M (A : Type) : Type := World -> result A * World.

Definition ret {A} (a : A) : M A := fun w => (Ret a, w).

Definition raise {A} (e : exn) : M A := fun w => (Raise e, w).

Definition bind {A B} (m : M A) (f : A -> M B) : M B :=
  fun w =>
    match m w with
    | (Ret a, w') => f a w'
    | (Raise e, w') => (Raise e, w')
    end.

Notation "x <- m ;; k" := (bind m (fun x => k))
  (at level 61, m at next level, right associativity).
Notation "m ;; k" := (bind m (fun _ => k))
  (at level 61, right associativity).

(** [try: body  except ... as e: handler e] *)
Definition try_except {A} (body : M A) (handler : exn -> M A) : M A :=
  fun w =>
    match body w with
    | (Ret a, w') => (Ret a, w')
    | (Raise e, w') => handler e w'
    end.

Definition emit (e : event) : M unit := fun w => (Ret tt, emit_event e w).

Definition log (level : log_level) (fmt : string) (args : list pyval) : M unit :=
  emit (EvLog level fmt args).

Definition print (line : string) : M unit := emit (EvPrint line).

Definition yield (b : bool) : M unit := emit (EvYield b).

(** [time.time()] *)
Definition time_time : M Z :=
  fun w => let t := clock w (ticks w) in (Ret t, emit_event (EvTime t) (tick w)).

(** [datetime.datetime.now()] *)
Definition datetime_now : M datetime :=
  fun w => let t := now w (ticks w) in (Ret t, emit_event (EvNow t) (tick w)).

(** [with target.get_handle() as handle: body]: acquiring the handle is
    taken to succeed; the connection's [__exit__] commits when the body
    completes and rolls back when it raises, and never swallows the
    exception. *)
Definition with_handle {A} (target : Target) (body : M A) : M A :=
  fun w =>
    match body (emit_event EvGetHandle w) with
    | (Ret a, w') => (Ret a, emit_event (EvHandleExit true) w')
    | (Raise e, w') => (Raise e, emit_event (EvHandleExit false) w')
    end.

(** [with handle.cursor() as cursor: body] *)
Definition with_cursor {A} (body : M A) : M A :=
  fun w =>
    match body (emit_event EvCursor w) with
    | (r, w') => (r, emit_event EvCursorExit w')
    end.

(** [cursor.execute(sql)] *)
Definition cursor_execute (sql : string) : M Cursor :=
  fun w =>
    let w1 := emit_event (EvExecute sql) w in
    match db_execute (db w) sql with
    | (d', ExecOk rows st) =>
        (Ret {| pending := rows; cursor_status := st |}, set_db d' w1)
    | (d', ExecRaise k) => (Raise (new_exn k), set_db d' w1)
    end.

(** [cursor.fetchone()]: the next row of the result set, [None] when there is
    none left. *)
Definition fetchone (cur : Cursor) : M (option row) :=
  fun w => (Ret (hd_error (pending cur)), emit_event EvFetchone w).

(** A global name load: the module's globals, then the builtins. *)
Definition load_global (x : string) : M pyval :=
  fun w =>
    if name_in x module_globals || name_in x (builtins w)
    then (Ret (PObj x), w)
    else (Raise (new_exn (NameError x)), w).

(** ** SchemaTester *)

(** [__init__] *)
Definition __init__ (project : Project) : M SchemaTester :=
  t <- datetime_now ;;
  ret {| project := project; test_started_at := t |}.

Definition get_target (self : SchemaTester) : Target :=
  run_environment (project self).

(** How the [try] block of [execute_query] ends: it falls through with the
    cursor, or an [except] clause returns from the method. *)
Inductive try_exit : Type :=
| FallThrough (cur : Cursor)
| Returned (v : pyval).

Definition execute_query (self : SchemaTester) (model : pyval) (sql : string)
  : M pyval :=
  let target := get_target self in
  with_handle target (
    with_cursor (
      r <- try_except
             (log DEBUG "SQL: %s" [PStr sql] ;;
              pre <- time_time ;;
              cur <- cursor_execute sql ;;
              post <- time_time ;;
              log DEBUG "SQL status: %s in %d seconds"
                  [PStr (cursor_status cur); PInt (post - pre)] ;;
              ret (FallThrough cur))
             (fun e =>
                match kind e with
                | ProgrammingError diag =>
                    log EXCEPTION "programming error: %s" [PStr sql] ;;
                    ret (Returned (message_primary diag))
                | _ =>
                    log EXCEPTION "encountered exception while running: %s"
                        [PStr sql] ;;
                    raise (set_model e model)
                end) ;;
      match r with
      | Returned v => ret v
      | FallThrough cur =>
          result <- fetchone cur ;;
          match result with
          | None =>
              (* len(None) *)
              raise (new_exn
                       (TypeError "object of type 'NoneType' has no len()"))
          | Some rec =>
              if negb (Nat.eqb (length rec) 1) then
                log ERROR "SQL: %s" [PStr sql] ;;
                log ERROR "RESULT: %s" rec ;;   (* the row's columns *)
                raise (new_exn
                         (RuntimeError
                            ("Unexpected validation result. Expected 1 record, got "
                               ++ string_of_Z (Z.of_nat (length rec)))))
              else ret (nth 0 rec PNone)
          end
      end)).

(** The generator [validate_schema], run to exhaustion; each [yield] is an
    [EvYield] event.  [model] is no local and no parameter of the method, so
    it is loaded as a global, after [self.execute_query] has been looked up
    and before the call. *)
Definition validate_schema (self : SchemaTester) (schema_test : SchemaTest)
  : M unit :=
  let sql := render schema_test in
  model <- load_global "model" ;;
  num_rows <- execute_query self model sql ;;
  if py_eq_zero num_rows then
    print "  OK" ;;
    yield true
  else
    print ("  FAILED (" ++ py_str num_rows ++ ")") ;;
    yield false.

(** ** The result recorder *)

Definition lift {A} (r : result A) : M A := fun w => (r, w).

Definition create_test_results_table_if_not_exist (self : SchemaTester)
  : M unit :=
  let target := get_target self in
  with_handle target (
    with_cursor (
      let stmt := DDL_TEST_RESULT_CREATE (schema target) in
      try_except
        (cursor_execute stmt ;; ret tt)
        (fun e =>
           match kind e with
           | ProgrammingError _ =>
               log EXCEPTION "programming error: %s" [PStr stmt]
           | _ => raise e
           end))).

(** The keyword arguments computed for one [res] in the loop of
    [insert_test_results]; the comparison [failed_rows > 0] may raise. *)
Definition result_row (self : SchemaTester) (res : RunModelResult)
  : result ResultRow.t :=
  let failed_rows :=
    if py_eq_str (status res) "ERROR" then PInt 0 else status res in
  match py_gt_zero failed_rows with
  | Ret positive =>
      Ret {| ResultRow.tested_at := test_started_at self;
             ResultRow.model_name := name (model res);
             ResultRow.errored := sql_bool (errored res);
             ResultRow.skipped := sql_bool (skipped res);
             ResultRow.failed := sql_bool positive;
             ResultRow.count_failures := failed_rows;
             ResultRow.execution_time := execution_time res |}
  | Raise e => Raise e
  end.

(** The [for res in run_model_results] loop, appending to [values]. *)
Fixpoint build_values (self : SchemaTester)
    (run_model_results : list RunModelResult) (values : list string)
  : M (list string) :=
  match run_model_results with
  | [] => ret values
  | res :: rest =>
      a <- lift (result_row self res) ;;
      build_values self rest (values ++ [value_template a])%list
  end.

Definition insert_test_results (self : SchemaTester)
    (run_model_results : list RunModelResult) : M unit :=
  let target := get_target self in
  create_test_results_table_if_not_exist self ;;
  values <- build_values self run_model_results [] ;;
  let joined := String.concat values_separator values in
  let stmt := INSERT_TEST_RESULT_TEMPLATE joined (schema target) in
  with_handle target (
    with_cursor (
      try_except
        (cursor_execute stmt ;; ret tt)
        (fun e =>
           match kind e with
           | ProgrammingError _ =>
               log EXCEPTION "programming error: %s" [PStr stmt]
           | _ => raise e
           end))).

End Model.

Arguments World DB : clear implicits.

(** ** Concrete runs *)

Definition sample_tester : SchemaTester :=
  {| project := {| run_environment := {| schema := "analytics" |} |};
     test_started_at := {| datetime_str := "2016-03-01 12:00:00" |} |}.

(** The builtin names the module itself relies on. *)
Definition sample_builtins : list string :=
  [ "object"; "len"; "print"; "Exception"; "RuntimeError"; "True"; "False" ].

(** A world over the journal engine: empty journal, empty trace, and the
    given clock. *)
Definition journal_world (clock : nat -> Z) : World (list string) :=
  {| db := [];
     clock := clock;
     now := fun _ => {| datetime_str := "2016-03-01 12:00:00" |};
     ticks := 0;
     builtins := sample_builtins;
     trace := [] |}.

(** A clock that starts at [t0] and advances by [step] per reading. *)
Definition linear_clock (t0 step : Z) (n : nat) : Z := t0 + step * Z.of_nat n.

(** An engine response: every statement completes with the given rows. *)
Definition respond_rows (rows : list row) (sql : string) : exec_outcome :=
  ExecOk rows "SELECT".

(** An engine response: every statement raises the given exception. *)
Definition respond_raise (k : exn_kind) (sql : string) : exec_outcome :=
  ExecRaise k.


Definition outcome (model_name : string) (status : pyval)
    (errored skipped : bool) : RunModelResult :=
  {| model := {| name := model_name |};
     status := status;
     errored := errored;
     skipped := skipped;
     execution_time := "0.25" |}.

(** A run of three outcomes: one passed, one errored, one with 3 failures. *)
Definition sample_run : list RunModelResult :=
  [ outcome "orders" (PInt 0) false false;
    outcome "customers" (PStr "ERROR") true false;
    outcome "payments" (PInt 3) false false ].

Definition result_row_of (model_name errored skipped failed : string)
    (count_failures : Z) : ResultRow.t :=
  {| ResultRow.tested_at := {| datetime_str := "2016-03-01 12:00:00" |};
     ResultRow.model_name := model_name;
     ResultRow.errored := errored;
     ResultRow.skipped := skipped;
     ResultRow.failed := failed;
     ResultRow.count_failures := PInt count_failures;
     ResultRow.execution_time := "0.25" |}.

(** The rows of [sample_run]. *)
Definition sample_rows : list ResultRow.t :=
  [ result_row_of "orders" "false" "false" "false" 0;
    result_row_of "customers" "true" "false" "false" 0;
    result_row_of "payments" "false" "false" "true" 3 ].

(** An engine response: the statement [bad] raises the given exception,
    every other statement completes with the given rows. *)
Definition respond_reject (bad : string) (k : exn_kind) (rows : list row)
    (sql : string) : exec_outcome :=
  if String.eqb sql bad then ExecRaise k else ExecOk rows "SELECT".

(** A journal world in which the name [model] is bound as a builtin. *)
Definition bound_model_world (clock : nat -> Z) : World (list string) :=
  {| db := [];
     clock := clock;
     now := fun _ => {| datetime_str := "2016-03-01 12:00:00" |};
     ticks := 0;
     builtins := "model" :: sample_builtins;
     trace := [] |}.

(** ** Observations on worlds and traces *)

(** The world reached from [w] by a computation that left the database in
    state [d], read the clock [n] times and emitted the events [evs]. *)
Definition advance {DB : Type} (w : World DB) (d : DB) (n : nat)
    (evs : list event) : World DB :=
  {| db := d; clock := clock w; now := now w; ticks := (n + ticks w)%nat;
     builtins := builtins w; trace := (trace w ++ evs)%list |}.

(** The same world with another wall clock. *)
Definition set_clock {DB : Type} (c : nat -> Z) (w : World DB) : World DB :=
  {| db := db w; clock := c; now := now w; ticks := ticks w;
     builtins := builtins w; trace := trace w |}.

(** The statements passed to [cursor.execute], in order. *)
Definition executed (tr : list event) : list string :=
  flat_map (fun e => match e with
                     | EvExecute sql => [sql]
                     | _ => []
                     end) tr.

(** The classifications yielded by the generator, in order. *)
Definition yields (tr : list event) : list bool :=
  flat_map (fun e => match e with
                     | EvYield b => [b]
                     | _ => []
                     end) tr.

(** The execution times written by the debug record
    [SQL status: %s in %d seconds]. *)
Definition elapsed_logged (tr : list event) : list pyval :=
  flat_map (fun e => match e with
                     | EvLog DEBUG fmt [_; t] =>
                         if String.eqb fmt "SQL status: %s in %d seconds"
                         then [t] else []
                     | _ => []
                     end) tr.


(** An outcome of [cursor.execute] that the recorder's [try] blocks absorb:
    completion, or a [ProgrammingError]. *)
Definition absorbed (o : exec_outcome) : bool :=
  match o with
  | ExecOk _ _ => true
  | ExecRaise (ProgrammingError _) => true
  | ExecRaise _ => false
  end.


(** The rows of a whole run: [result_row] over the outcomes in order,
    stopping at the first comparison that raises. *)
Fixpoint result_rows (self : SchemaTester) (rs : list RunModelResult)
  : result (list ResultRow.t) :=
  match rs with
  | [] => Ret []
  | res :: rest =>
      match result_row self res with
      | Ret a =>
          match result_rows self rest with
          | Ret l => Ret (a :: l)
          | Raise e => Raise e
          end
      | Raise e => Raise e
      end
  end.

(** The bulk insert statement for the given rows. *)
Definition insert_statement (self : SchemaTester) (rows : list ResultRow.t) : string :=
  INSERT_TEST_RESULT_TEMPLATE
    (String.concat values_separator (map value_template rows))
    (schema (get_target self)).

(** The invariant of a result row: [failed] is the text of
    [count_failures > 0]. *)
Definition row_invariant (a : ResultRow.t) : Prop :=
  exists n, ResultRow.count_failures a = PInt n /\ ResultRow.failed a = sql_bool (0 <? n).

(** What one recorder statement leaves in the trace, by the outcome of its
    [cursor.execute]. *)
Definition statement_events (stmt : string) (o : exec_outcome) : list event :=
  ([EvGetHandle; EvCursor; EvExecute stmt]
   ++ match o with
      | ExecRaise (ProgrammingError _) =>
          [EvLog EXCEPTION "programming error: %s" [PStr stmt]]
      | _ => []
      end
   ++ [EvCursorExit; EvHandleExit (absorbed o)])%list.

(** How one recorder statement ends, by the outcome of its [cursor.execute]. *)
Definition statement_result (o : exec_outcome) : result unit :=
  match o with
  | ExecOk _ _ => Ret tt
  | ExecRaise (ProgrammingError _) => Ret tt
  | ExecRaise k => Raise (new_exn k)
  end.

(** Whether a computation ended by returning. *)
Definition returns {A : Type} (r : result A) : bool :=
  match r with
  | Ret _ => true
  | Raise _ => false
  end.

(** The lines written by [print], in order. *)
Definition prints (tr : list event) : list string :=
  flat_map (fun e => match e with
                     | EvPrint line => [line]
                     | _ => []
                     end) tr.





(** How [execute_query] ends, by the outcome of its [cursor.execute]. *)
Definition query_result (model : pyval) (o : exec_outcome) : result pyval :=
  match o with
  | ExecOk [] _ =>
      Raise (new_exn (TypeError "object of type 'NoneType' has no len()"))
  | ExecOk (rec :: _) _ =>
      if Nat.eqb (length rec) 1 then Ret (nth 0 rec PNone)
      else Raise (new_exn
                    (RuntimeError
                       ("Unexpected validation result. Expected 1 record, got "
                          ++ string_of_Z (Z.of_nat (length rec)))))
  | ExecRaise (ProgrammingError diag) => Ret (message_primary diag)
  | ExecRaise k => Raise {| kind := k; model_attr := Some model |}
  end.

(** The clock readings [execute_query] takes, by that outcome. *)
Definition query_ticks (o : exec_outcome) : nat :=
  match o with
  | ExecOk _ _ => 2
  | ExecRaise _ => 1
  end.

(** What [execute_query] leaves in the trace, by that outcome; [pre] and
    [post] are the clock readings. *)
Definition query_events (sql : string) (pre post : Z) (model : pyval)
    (o : exec_outcome) : list event :=
  ([EvGetHandle; EvCursor; EvLog DEBUG "SQL: %s" [PStr sql]; EvTime pre;
    EvExecute sql]
   ++ match o with
      | ExecOk rows st =>
          [EvTime post;
           EvLog DEBUG "SQL status: %s in %d seconds"
             [PStr st; PInt (post - pre)];
           EvFetchone]
          ++ match rows with
             | [] => []
             | rec :: _ =>
                 if Nat.eqb (length rec) 1 then []
                 else [EvLog ERROR "SQL: %s" [PStr sql];
                       EvLog ERROR "RESULT: %s" rec]
             end
      | ExecRaise (ProgrammingError _) =>
          [EvLog EXCEPTION "programming error: %s" [PStr sql]]
      | ExecRaise _ =>
          [EvLog EXCEPTION "encountered exception while running: %s"
             [PStr sql]]
      end
   ++ [EvCursorExit; EvHandleExit (returns (query_result model o))])%list.

(** ** Proof automation *)

Ltac run_monad :=
  cbv beta delta
    [bind ret raise try_except emit log print yield lift time_time
     datetime_now with_handle with_cursor cursor_execute fetchone load_global
     emit_event tick set_db advance set_clock new_exn set_model get_target]
    iota zeta;
  cbn [db clock now ticks builtins trace kind model_attr fst snd
       pending cursor_status].

Ltac norm_trace :=
  repeat rewrite <- app_assoc; cbn [app].

(** ** Properties of the executor *)

Section Executor.

Context {DB : Type}.
Variable db_execute : DB -> string -> DB * exec_outcome.

(** A result set whose first row has exactly one column: the method returns
    that column, whatever follows the first row. *)
Lemma execute_query_first_row (self : SchemaTester) (model : pyval)
    (sql : string) (w : World DB) (d' : DB) (v : pyval) (rest : list row)
    (st : string) :
  db_execute (db w) sql = (d', ExecOk ([v] :: rest) st) ->
  execute_query db_execute self model sql w
  = (Ret v,
     advance w d' 2
       [ EvGetHandle; EvCursor; EvLog DEBUG "SQL: %s" [PStr sql];
         EvTime (clock w (ticks w)); EvExecute sql;
         EvTime (clock w (S (ticks w)));
         EvLog DEBUG "SQL status: %s in %d seconds"
           [PStr st; PInt (clock w (S (ticks w)) - clock w (ticks w))];
         EvFetchone; EvCursorExit; EvHandleExit true ]).
Proof.
  intros H. unfold execute_query. run_monad. rewrite H. run_monad.
  cbn. norm_trace. reflexivity.
Qed.

(** X4.  An empty result set: [fetchone] gives [None], and [len(None)] raises
    [TypeError], not the method's own [RuntimeError]. *)
Lemma execute_query_no_row (self : SchemaTester) (model : pyval)
    (sql : string) (w : World DB) (d' : DB) (st : string) :
  db_execute (db w) sql = (d', ExecOk [] st) ->
  fst (execute_query db_execute self model sql w)
  = Raise (new_exn (TypeError "object of type 'NoneType' has no len()")).
Proof.
  intros H. unfold execute_query. run_monad. rewrite H. reflexivity.
Qed.

(** X5.  A first row with no column or with several: [RuntimeError], whose
    message reports the number of columns. *)
Lemma execute_query_wrong_width (self : SchemaTester) (model : pyval)
    (sql : string) (w : World DB) (d' : DB) (rec : row) (rest : list row)
    (st : string) :
  db_execute (db w) sql = (d', ExecOk (rec :: rest) st) ->
  length rec <> 1%nat ->
  fst (execute_query db_execute self model sql w)
  = Raise (new_exn
             (RuntimeError
                ("Unexpected validation result. Expected 1 record, got "
                   ++ string_of_Z (Z.of_nat (length rec))))).
Proof.
  intros H Hlen. unfold execute_query. run_monad. rewrite H. run_monad.
  cbn [hd_error]. apply Nat.eqb_neq in Hlen. rewrite Hlen. reflexivity.
Qed.

(** Any exception of [cursor.execute] other than [ProgrammingError] is
    re-raised with the model attached. *)
Lemma execute_query_reraises (self : SchemaTester) (model : pyval)
    (sql : string) (w : World DB) (d' : DB) (k : exn_kind) :
  db_execute (db w) sql = (d', ExecRaise k) ->
  (forall diag, k <> ProgrammingError diag) ->
  fst (execute_query db_execute self model sql w)
  = Raise {| kind := k; model_attr := Some model |}.
Proof.
  intros H Hk. unfold execute_query. run_monad. rewrite H. run_monad.
  destruct k; try reflexivity. now elim (Hk diag).
Qed.

(** X7.  If the name [model] were bound in the builtins, the generator would
    run the query and yield [True] exactly for a zero count. *)
Lemma validate_schema_if_model_bound (self : SchemaTester)
    (schema_test : SchemaTest) (w : World DB) (d' : DB) (v : pyval)
    (rest : list row) (st : string) :
  name_in "model" (builtins w) = true ->
  db_execute (db w) (render schema_test) = (d', ExecOk ([v] :: rest) st) ->
  exists w',
    validate_schema db_execute self schema_test w = (Ret tt, w')
    /\ yields (trace w') = (yields (trace w) ++ [py_eq_zero v])%list.
Proof.
  intros Hb H. unfold validate_schema.
  unfold bind at 1. unfold load_global. rewrite Hb. rewrite orb_true_r.
  unfold bind at 1.
  rewrite (execute_query_first_row self (PObj "model") _ w d' v rest st H).
  destruct (py_eq_zero v); run_monad; eexists; (split; [reflexivity|]);
    cbn [trace]; unfold yields; rewrite !flat_map_app; cbn;
    rewrite !app_nil_r; reflexivity.
Qed.



(** C8, as the code has it.  When the statement completes, the clock is read
    immediately before and immediately after [cursor.execute], after the
    handle and the cursor have been acquired, and the difference goes to a
    debug log record; the value the method returns (or the exception it
    raises) is the same whatever the clock reads. *)
Theorem execute_query_times_statement (self : SchemaTester) (model : pyval)
    (sql : string) (w : World DB) (d' : DB) (rows : list row) (st : string) :
  db_execute (db w) sql = (d', ExecOk rows st) ->
  let pre := clock w (ticks w) in
  let post := clock w (S (ticks w)) in
  exists r evs,
    execute_query db_execute self model sql w
    = (r,
       advance w d' 2
         ([ EvGetHandle; EvCursor; EvLog DEBUG "SQL: %s" [PStr sql];
            EvTime pre; EvExecute sql; EvTime post;
            EvLog DEBUG "SQL status: %s in %d seconds"
              [PStr st; PInt (post - pre)] ] ++ evs))
    /\ elapsed_logged evs = []
    /\ forall c, fst (execute_query db_execute self model sql (set_clock c w)) = r.
Proof.
  intros H pre post. subst pre post.
  destruct rows as [|rec rest].
  - eexists. exists [EvFetchone; EvCursorExit; EvHandleExit false].
    split; [|split].
    + unfold execute_query. run_monad. rewrite H. run_monad.
      cbn. norm_trace. reflexivity.
    + reflexivity.
    + intros c. unfold execute_query. run_monad. rewrite H. reflexivity.
  - destruct (Nat.eqb (length rec) 1) eqn:Hlen.
    + eexists. exists [EvFetchone; EvCursorExit; EvHandleExit true].
      split; [|split].
      * unfold execute_query. run_monad. rewrite H. run_monad.
        cbn [hd_error]. rewrite Hlen. cbn. norm_trace. reflexivity.
      * reflexivity.
      * intros c. unfold execute_query. run_monad. rewrite H. run_monad.
        cbn [hd_error]. rewrite Hlen. reflexivity.
    + eexists.
      exists [EvFetchone; EvLog ERROR "SQL: %s" [PStr sql];
              EvLog ERROR "RESULT: %s" rec; EvCursorExit; EvHandleExit false].
      split; [|split].
      * unfold execute_query. run_monad. rewrite H. run_monad.
        cbn [hd_error]. rewrite Hlen. cbn. norm_trace. reflexivity.
      * reflexivity.
      * intros c. unfold execute_query. run_monad. rewrite H. run_monad.
        cbn [hd_error]. rewrite Hlen. reflexivity.
Qed.

End Executor.

(** ** Properties of the recorder *)

Section Recorder.

Context {DB : Type}.
Variable db_execute : DB -> string -> DB * exec_outcome.

(** One statement under its own handle and cursor, with the recorder's
    [except psycopg2.ProgrammingError] clause. *)
Lemma recorder_statement (target : Target) (stmt : string) (w : World DB)
    (d' : DB) (o : exec_outcome) :
  db_execute (db w) stmt = (d', o) ->
  with_handle target
    (with_cursor
       (try_except
          (bind (cursor_execute db_execute stmt) (fun _ => ret tt))
          (fun e =>
             match kind e with
             | ProgrammingError _ =>
                 log EXCEPTION "programming error: %s" [PStr stmt]
             | _ => raise e
             end))) w
  = (statement_result o, advance w d' 0 (statement_events stmt o)).
Proof.
  intros H. run_monad. rewrite H.
  destruct o as [rows st|k]; [|destruct k]; run_monad; cbn;
    norm_trace; reflexivity.
Qed.

Lemma create_test_results_table_run (self : SchemaTester) (w : World DB)
    (d' : DB) (o : exec_outcome) :
  db_execute (db w) (DDL_TEST_RESULT_CREATE (schema (get_target self)))
  = (d', o) ->
  create_test_results_table_if_not_exist db_execute self w
  = (statement_result o,
     advance w d' 0
       (statement_events (DDL_TEST_RESULT_CREATE (schema (get_target self))) o)).
Proof.
  intros H. unfold create_test_results_table_if_not_exist.
  now apply recorder_statement.
Qed.

(** The loop computes the rows of the run and appends their rendered tuples;
    it touches neither the database nor the trace. *)
Lemma build_values_run (self : SchemaTester) (rs : list RunModelResult) :
  forall (values : list string) (w : World DB),
    build_values self rs values w
    = match result_rows self rs with
      | Ret rows => (Ret (values ++ map value_template rows)%list, w)
      | Raise e => (Raise e, w)
      end.
Proof.
  induction rs as [|res rest IH]; intros values w; cbn [build_values result_rows].
  - cbn [map]. rewrite app_nil_r. reflexivity.
  - unfold bind at 1, lift.
    destruct (result_row self res) as [a|e]; [|reflexivity].
    rewrite IH. destruct (result_rows self rest) as [rows|e]; [|reflexivity].
    cbn [map]. rewrite <- app_assoc. reflexivity.
Qed.


(** Every row computed for a run pairs with the outcome it was computed from. *)
Lemma result_rows_Forall2 (self : SchemaTester) (rs : list RunModelResult) :
  forall rows,
    result_rows self rs = Ret rows ->
    Forall2 (fun res a => result_row self res = Ret a) rs rows.
Proof.
  induction rs as [|res rest IH]; intros rows H; cbn [result_rows] in H.
  - inversion H. constructor.
  - destruct (result_row self res) as [a|e] eqn:Ha; [|discriminate].
    destruct (result_rows self rest) as [l|e]; [|discriminate].
    inversion H; subst. constructor; [assumption | now apply IH].
Qed.

(** What [result_row] computes, when it computes a row. *)
Lemma result_row_inv (self : SchemaTester) (res : RunModelResult) (a : ResultRow.t) :
  result_row self res = Ret a ->
  exists n,
    (if py_eq_str (status res) "ERROR" then PInt 0 else status res) = PInt n
    /\ a = {| ResultRow.tested_at := test_started_at self;
              ResultRow.model_name := name (model res);
              ResultRow.errored := sql_bool (errored res);
              ResultRow.skipped := sql_bool (skipped res);
              ResultRow.failed := sql_bool (0 <? n);
              ResultRow.count_failures := PInt n;
              ResultRow.execution_time := execution_time res |}.
Proof.
  unfold result_row. intros H.
  destruct (if py_eq_str (status res) "ERROR" then PInt 0 else status res)
    as [|n|s|id] eqn:E; cbn [py_gt_zero] in H; try discriminate.
  exists n. split; [reflexivity|]. now inversion H.
Qed.

(** The whole of [insert_test_results], by the outcomes of its statements. *)
Lemma insert_test_results_run (self : SchemaTester)
    (rs : list RunModelResult) (w : World DB) :
  let ddl := DDL_TEST_RESULT_CREATE (schema (get_target self)) in
  let d1 := fst (db_execute (db w) ddl) in
  let o1 := snd (db_execute (db w) ddl) in
  insert_test_results db_execute self rs w
  = match statement_result o1, result_rows self rs with
    | Ret _, Ret rows =>
        let stmt := insert_statement self rows in
        let d2 := fst (db_execute d1 stmt) in
        let o2 := snd (db_execute d1 stmt) in
        (statement_result o2,
         advance w d2 0 (statement_events ddl o1 ++ statement_events stmt o2))
    | Ret _, Raise e => (Raise e, advance w d1 0 (statement_events ddl o1))
    | Raise e, _ => (Raise e, advance w d1 0 (statement_events ddl o1))
    end.
Proof.
  intros ddl d1 o1. unfold insert_test_results. unfold bind at 1.
  rewrite (create_test_results_table_run self w d1 o1)
    by (subst ddl d1 o1; apply surjective_pairing).
  fold ddl.
  destruct (statement_result o1) as [[]|e]; [|now destruct (result_rows self rs)].
  unfold bind at 1. rewrite build_values_run.
  destruct (result_rows self rs) as [rows|e]; [|reflexivity].
  cbn [app]. fold (insert_statement self rows).
  cbv zeta.
  rewrite (recorder_statement (get_target self) (insert_statement self rows)
             (advance w d1 0 (statement_events ddl o1))
             (fst (db_execute d1 (insert_statement self rows)))
             (snd (db_execute d1 (insert_statement self rows))))
    by (cbn [db advance]; apply surjective_pairing).
  unfold advance. cbn [db clock now ticks builtins trace Nat.add].
  rewrite <- app_assoc. reflexivity.
Qed.

Lemma executed_app (xs ys : list event) :
  executed (xs ++ ys) = (executed xs ++ executed ys)%list.
Proof.
  unfold executed. apply flat_map_app.
Qed.

Lemma executed_statement_events (stmt : string) (o : exec_outcome) :
  executed (statement_events stmt o) = [stmt].
Proof.
  destruct o as [rows st|k]; [|destruct k]; reflexivity.
Qed.



Lemma statement_result_absorbed (o : exec_outcome) :
  absorbed o = true -> statement_result o = Ret tt.
Proof.
  destruct o as [rows st|k]; [|destruct k]; cbn; intros H;
    try discriminate; reflexivity.
Qed.

Lemma statement_result_not_absorbed (o : exec_outcome) :
  absorbed o = false -> exists e, statement_result o = Raise e.
Proof.
  destruct o as [rows st|k]; [|destruct k]; cbn; intros H;
    try discriminate; eexists; reflexivity.
Qed.

(** The tester's [test_started_at] is one reading of the clock, taken when
    the tester is constructed. *)
Lemma init_reads_clock_once (project : Project) (w : World DB) :
  __init__ project w
  = (Ret {| project := project; test_started_at := now w (ticks w) |},
     advance w (db w) 1 [EvNow (now w (ticks w))]).
Proof.
  reflexivity.
Qed.




(** C6, as the code has it.  Every row computed for a run satisfies
    [failed == (count_failures > 0)], and every row computed for an outcome
    whose status is [ERROR] carries [count_failures = 0] and
    [failed = false]. *)
Theorem written_rows_invariant (self : SchemaTester)
    (rs : list RunModelResult) (rows : list ResultRow.t) :
  result_rows self rs = Ret rows ->
  Forall row_invariant rows
  /\ Forall2 (fun res a =>
                status res = PStr "ERROR" ->
                ResultRow.count_failures a = PInt 0 /\ ResultRow.failed a = "false")
       rs rows
  /\ forall w : World DB,
       let ddl := DDL_TEST_RESULT_CREATE (schema (get_target self)) in
       executed (trace (snd (insert_test_results db_execute self rs w)))
       = (executed (trace w)
          ++ ddl :: (if absorbed (snd (db_execute (db w) ddl))
                     then [insert_statement self rows] else []))%list.
Proof.
  intros Hrows. rewrite <- and_assoc. split.
  - pose proof (result_rows_Forall2 self rs rows Hrows) as HF. clear Hrows.
    induction HF as [|res a rs' rows' Ha _ [IH1 IH2]].
    + split; constructor.
    + apply result_row_inv in Ha. destruct Ha as [n [Hn ->]].
      split; constructor; try assumption.
      * exists n. split; reflexivity.
      * intros He. rewrite He in Hn. cbn in Hn. inversion Hn; subst.
        split; reflexivity.
  - intros w ddl. rewrite insert_test_results_run. fold ddl. cbv zeta.
    rewrite Hrows.
    destruct (absorbed (snd (db_execute (db w) ddl))) eqn:Ho1.
    + rewrite (statement_result_absorbed _ Ho1). cbn [fst snd advance trace].
      rewrite !executed_app, !executed_statement_events. reflexivity.
    + destruct (statement_result_not_absorbed _ Ho1) as [e ->].
      cbn [fst snd advance trace].
      rewrite executed_app, executed_statement_events. reflexivity.
Qed.

End Recorder.

(** ** Concrete runs of the executor *)

(** C1.  A database whose answer to the assertion is the single row [(0,)]
    (and one whose answer is [(4,)]): [execute_query] returns the count, but
    [validate_schema] stops at the unbound name [model] before it runs the
    query, so nothing is classified: no [True] for the zero count and no
    [False] for the count 4. *)
Theorem validate_schema_single_count_unclassified :
  fst (execute_query (journal_execute (respond_rows [[PInt 0]])) sample_tester
         (PObj "orders") "select 0" (journal_world (linear_clock 0 1)))
  = Ret (PInt 0)
  /\ validate_schema (journal_execute (respond_rows [[PInt 0]])) sample_tester
       {| render := "select 0" |} (journal_world (linear_clock 0 1))
     = (Raise (new_exn (NameError "model")), journal_world (linear_clock 0 1))
  /\ fst (execute_query (journal_execute (respond_rows [[PInt 4]])) sample_tester
            (PObj "orders") "select 4" (journal_world (linear_clock 0 1)))
     = Ret (PInt 4)
  /\ validate_schema (journal_execute (respond_rows [[PInt 4]])) sample_tester
       {| render := "select 4" |} (journal_world (linear_clock 0 1))
     = (Raise (new_exn (NameError "model")), journal_world (linear_clock 0 1))
  /\ yields
       (trace
          (snd (validate_schema (journal_execute (respond_rows [[PInt 0]]))
                  sample_tester {| render := "select 0" |}
                  (journal_world (linear_clock 0 1)))))
     = [].
Proof.
  repeat split; reflexivity.
Qed.

(** C3.  A result set of two rows of one column each: [fetchone] takes the
    first row, whose length is 1, so [execute_query] returns 3 and raises
    nothing; the second row is dropped silently. *)
Theorem execute_query_two_rows_accepted :
  fst (execute_query (journal_execute (respond_rows [[PInt 3]; [PInt 5]]))
         sample_tester (PObj "orders") "select n from counts"
         (journal_world (linear_clock 0 1)))
  = Ret (PInt 3).
Proof.
  reflexivity.
Qed.



(** C8 fails as stated: two runs that differ only in the clock return the
    same outcome, while the measured times (2 and 7) differ; the measured
    time is therefore no part of the outcome.  When the statement raises, no
    execution time is computed at all. *)
Lemma execute_query_outcome_ignores_time :
  fst (execute_query (journal_execute (respond_rows [[PInt 0]])) sample_tester
         (PObj "orders") "select 0" (journal_world (linear_clock 100 2)))
  = Ret (PInt 0)
  /\ fst (execute_query (journal_execute (respond_rows [[PInt 0]]))
            sample_tester (PObj "orders") "select 0"
            (journal_world (linear_clock 100 7)))
     = Ret (PInt 0)
  /\ elapsed_logged
       (trace (snd (execute_query (journal_execute (respond_rows [[PInt 0]]))
                      sample_tester (PObj "orders") "select 0"
                      (journal_world (linear_clock 100 2)))))
     = [PInt 2]
  /\ elapsed_logged
       (trace (snd (execute_query (journal_execute (respond_rows [[PInt 0]]))
                      sample_tester (PObj "orders") "select 0"
                      (journal_world (linear_clock 100 7)))))
     = [PInt 7]
  /\ elapsed_logged
       (trace
          (snd (execute_query
                  (journal_execute
                     (respond_raise
                        (ProgrammingError
                           {| message_primary := PStr "syntax error" |})))
                  sample_tester (PObj "orders") "select 0"
                  (journal_world (linear_clock 100 7)))))
     = [].
Proof.
  repeat split; reflexivity.
Qed.

Lemma execute_query_times_statement_witness :
  exists r evs,
    execute_query (journal_execute (respond_rows [[PInt 0]])) sample_tester
      (PObj "orders") "select 0" (journal_world (linear_clock 100 2))
    = (r,
       advance (journal_world (linear_clock 100 2)) ["select 0"] 2
         ([ EvGetHandle; EvCursor; EvLog DEBUG "SQL: %s" [PStr "select 0"];
            EvTime 100; EvExecute "select 0"; EvTime 102;
            EvLog DEBUG "SQL status: %s in %d seconds"
              [PStr "SELECT"; PInt 2] ] ++ evs))
    /\ elapsed_logged evs = []
    /\ forall c,
         fst (execute_query (journal_execute (respond_rows [[PInt 0]]))
                sample_tester (PObj "orders") "select 0"
                (set_clock c (journal_world (linear_clock 100 2))))
         = r.
Proof.
  apply (execute_query_times_statement
           (journal_execute (respond_rows [[PInt 0]])) sample_tester
           (PObj "orders") "select 0" (journal_world (linear_clock 100 2))
           ["select 0"] [[PInt 0]] "SELECT").
  reflexivity.
Defined.

(** ** Concrete runs of the recorder *)






(** C6 fails as stated: an outcome flagged as errored whose status is the
    count 3 is written with [errored = true] and [count_failures = 3]. *)
Lemma errored_row_keeps_status_count :
  result_row sample_tester (outcome "orders" (PInt 3) true false)
  = Ret (result_row_of "orders" "true" "false" "true" 3)
  /\ db (snd (insert_test_results (journal_execute (respond_rows []))
                sample_tester [outcome "orders" (PInt 3) true false]
                (journal_world (linear_clock 0 1))))
     = [ DDL_TEST_RESULT_CREATE "analytics";
         "
insert into analytics.dbt_test_results
    (tested_at, model_name, errored, skipped, failed, count_failures, execution_time)
values
    ('2016-03-01 12:00:00', 'orders', true, false, true, 3, 0.25)
" ].
Proof.
  split; reflexivity.
Qed.

Lemma written_rows_invariant_witness :
  Forall row_invariant sample_rows
  /\ Forall2 (fun res a =>
                status res = PStr "ERROR" ->
                ResultRow.count_failures a = PInt 0 /\ ResultRow.failed a = "false")
       sample_run sample_rows
  /\ forall w : World (list string),
       let ddl := DDL_TEST_RESULT_CREATE (schema (get_target sample_tester)) in
       executed
         (trace (snd (insert_test_results (journal_execute (respond_rows []))
                        sample_tester sample_run w)))
       = (executed (trace w)
          ++ ddl :: (if absorbed
                          (snd (journal_execute (respond_rows []) (db w) ddl))
                     then [insert_statement sample_tester sample_rows]
                     else []))%list.
Proof.
  exact (written_rows_invariant (journal_execute (respond_rows []))
           sample_tester sample_run sample_rows eq_refl).
Defined.



(** ** Properties of the referential-integrity query *)

Section ReferentialIntegrity.

(** Over a parent column without NULL, [in] is two-valued. *)
Lemma in3_without_null (x : Z) (parent : list Sql.value) :
  Forall (fun p => p <> None) parent ->
  Sql.in3 (Some x) parent
  = if existsb (holds_value x) parent then Sql.TRUE else Sql.FALSE.
Proof.
  induction 1 as [|p parent Hp _ IH]; [reflexivity|].
  cbn [Sql.in3 fold_right existsb]. fold (Sql.in3 (Some x) parent).
  rewrite IH. destruct p as [y|]; [|contradiction].
  cbn [Sql.eq3 holds_value].
  destruct (x =? y), (existsb (holds_value x) parent); reflexivity.
Qed.

(** A NULL among the parent values makes [not in] fail to hold for every
    child value that has no match. *)
Lemma in3_with_null (x : Sql.value) (parent : list Sql.value) :
  In None parent -> Sql.in3 x parent <> Sql.FALSE.
Proof.
  induction parent as [|p parent IH]; [contradiction|].
  intros [->|Hin]; cbn [Sql.in3 fold_right]; fold (Sql.in3 x parent).
  - destruct x; cbn [Sql.eq3]; destruct (Sql.in3 _ parent); discriminate.
  - specialize (IH Hin).
    destruct (Sql.eq3 x p), (Sql.in3 x parent); try discriminate; congruence.
Qed.

(** X18.  When the parent column holds no NULL, the query counts exactly the child
    rows whose value is non-null and absent from the parent values. *)
Lemma referential_integrity_exact_without_null (parent child : list Sql.value) :
  Forall (fun p => p <> None) parent ->
  referential_integrity_count parent child
  = spec_referential_violations parent child.
Proof.
  intros Hp. unfold referential_integrity_count, spec_referential_violations.
  do 2 f_equal. apply filter_ext. intros [x|].
  - rewrite (in3_without_null x parent Hp).
    destruct (existsb (holds_value x) parent); reflexivity.
  - cbn [Sql.is_not_null]. destruct (Sql.not3 _); reflexivity.
Qed.

(** X20.  A child row whose value is NULL is never counted. *)
Lemma referential_integrity_skips_null_child (parent child : list Sql.value) :
  referential_integrity_count parent (None :: child)
  = referential_integrity_count parent child.
Proof.
  unfold referential_integrity_count. cbn [filter Sql.is_not_null].
  destruct (Sql.not3 (Sql.in3 None parent)); reflexivity.
Qed.

(** X19.  With a NULL among the parent values the query counts nothing at
    all. *)
Lemma referential_integrity_blind_with_null_parent
    (parent child : list Sql.value) :
  In None parent -> referential_integrity_count parent child = 0.
Proof.
  intros Hin. unfold referential_integrity_count.
  replace (filter _ child) with (@nil Sql.value); [reflexivity|].
  symmetry. induction child as [|c child IH]; [reflexivity|].
  cbn [filter]. rewrite <- IH.
  pose proof (in3_with_null c parent Hin) as Hc.
  destruct (Sql.in3 c parent), c; cbn; try reflexivity; congruence.
Qed.

End ReferentialIntegrity.

(** C9.  Parent values [1, NULL], child values [2]: the child value 2 is
    non-null and absent from the parent values (one violation), yet the
    query counts 0, since [2 not in (1, NULL)] is unknown, not true. *)
Theorem referential_integrity_misses_violation :
  referential_integrity_count [Some 1; None] [Some 2] = 0
  /\ spec_referential_violations [Some 1; None] [Some 2] = 1.
Proof.
  split; reflexivity.
Qed.

(** ** Further properties of the executor *)


Lemma yields_app (xs ys : list event) :
  yields (xs ++ ys) = (yields xs ++ yields ys)%list.
Proof.
  unfold yields. apply flat_map_app.
Qed.

Lemma prints_app (xs ys : list event) :
  prints (xs ++ ys) = (prints xs ++ prints ys)%list.
Proof.
  unfold prints. apply flat_map_app.
Qed.

Lemma executed_query_events (sql : string) (pre post : Z) (model : pyval)
    (o : exec_outcome) :
  executed (query_events sql pre post model o) = [sql].
Proof.
  destruct o as [[|rec rest] st|k]; [reflexivity| |destruct k; reflexivity].
  unfold query_events. destruct (Nat.eqb (length rec) 1); reflexivity.
Qed.

Section ExecutorRuns.

Context {DB : Type}.
Variable db_execute : DB -> string -> DB * exec_outcome.

(** The whole of [execute_query], by the outcome of its [cursor.execute]. *)
Lemma execute_query_run (self : SchemaTester) (model : pyval) (sql : string)
    (w : World DB) (d' : DB) (o : exec_outcome) :
  db_execute (db w) sql = (d', o) ->
  execute_query db_execute self model sql w
  = (query_result model o,
     advance w d' (query_ticks o)
       (query_events sql (clock w (ticks w)) (clock w (S (ticks w))) model o)).
Proof.
  intros H. unfold execute_query. run_monad. rewrite H.
  destruct o as [rows st|k].
  - run_monad. destruct rows as [|rec rest]; cbn [hd_error].
    + cbn. norm_trace. reflexivity.
    + unfold query_events, query_result.
      destruct (Nat.eqb (length rec) 1); cbn; norm_trace; reflexivity.
  - destruct k; run_monad; cbn; norm_trace; reflexivity.
Qed.




(** X6.  A [ProgrammingError] in one assertion does not stop the next: the
    second call runs in the world the first one left, against the database
    state the failed statement left, and both statements are executed. *)
Theorem programming_error_does_not_stop_next (self : SchemaTester)
    (model1 model2 : pyval) (sql1 sql2 : string) (w : World DB) (d1 : DB)
    (diag : Diagnostics) :
  db_execute (db w) sql1 = (d1, ExecRaise (ProgrammingError diag)) ->
  let both :=
    bind (execute_query db_execute self model1 sql1)
         (fun _ => execute_query db_execute self model2 sql2) w in
  let w1 := snd (execute_query db_execute self model1 sql1 w) in
  both = execute_query db_execute self model2 sql2 w1
  /\ db w1 = d1
  /\ executed (trace (snd both)) = (executed (trace w) ++ [sql1; sql2])%list
  /\ db (snd both) = fst (db_execute d1 sql2).
Proof.
  intros H both w1. subst both w1. unfold bind.
  rewrite (execute_query_run self model1 sql1 w d1 _ H).
  cbn [query_result fst snd].
  match goal with |- context [execute_query _ _ _ _ ?w1] => set (w1' := w1) end.
  split; [reflexivity|]. split; [reflexivity|].
  rewrite (execute_query_run self model2 sql2 w1' _ _
             (surjective_pairing (db_execute (db w1') sql2))).
  cbn [snd advance trace db]. subst w1'. cbn [advance trace db].
  rewrite !executed_app, !executed_query_events.
  rewrite <- app_assoc. split; reflexivity.
Qed.

(** X8.  If the name [model] were bound, a [ProgrammingError] of the
    assertion query would be reported as a failed test: the diagnostic text
    returned by [execute_query] is not equal to 0, so the generator prints
    [FAILED] with the diagnostic and yields [False]. *)
Theorem validate_schema_reports_programming_error_as_failed
    (self : SchemaTester) (schema_test : SchemaTest) (w : World DB) (d' : DB)
    (message : string) :
  name_in "model" (builtins w) = true ->
  db_execute (db w) (render schema_test)
  = (d', ExecRaise (ProgrammingError {| message_primary := PStr message |})) ->
  exists w',
    validate_schema db_execute self schema_test w = (Ret tt, w')
    /\ yields (trace w') = (yields (trace w) ++ [false])%list
    /\ prints (trace w')
       = (prints (trace w) ++ [("  FAILED (" ++ message ++ ")")%string])%list.
Proof.
  intros Hb H. unfold validate_schema.
  unfold bind at 1. unfold load_global. rewrite Hb. rewrite orb_true_r.
  unfold bind at 1.
  rewrite (execute_query_run self (PObj "model") _ w d' _ H).
  cbn [query_result message_primary py_eq_zero py_str]. run_monad.
  eexists. split; [reflexivity|].
  cbn [trace]. rewrite !yields_app, !prints_app. cbn.
  rewrite !app_nil_r. split; reflexivity.
Qed.

End ExecutorRuns.

(** ** Further properties of the recorder *)




Section RecorderRuns.

Context {DB : Type}.
Variable db_execute : DB -> string -> DB * exec_outcome.

(** X9.  An empty run is not skipped: once the create-table statement has
    completed or raised [ProgrammingError], the recorder still executes the
    insert template, with nothing after [values]. *)
Theorem insert_test_results_empty_run (self : SchemaTester) (w : World DB) :
  absorbed
    (snd (db_execute (db w) (DDL_TEST_RESULT_CREATE (schema (get_target self)))))
  = true ->
  executed (trace (snd (insert_test_results db_execute self [] w)))
  = (executed (trace w)
     ++ [ DDL_TEST_RESULT_CREATE (schema (get_target self));
          INSERT_TEST_RESULT_TEMPLATE "" (schema (get_target self)) ])%list.
Proof.
  intros Ho1. rewrite insert_test_results_run. cbv zeta.
  rewrite (statement_result_absorbed _ Ho1). cbn [result_rows snd advance trace].
  rewrite !executed_app, !executed_statement_events. reflexivity.
Qed.


(** X11.  The [tested_at] of every row is the one clock reading taken when
    the tester was constructed, not the time of the insert: a tester made by
    [__init__] in a world [w0] stamps every row of every run it records with
    the datetime read in [w0]. *)
Theorem tested_at_is_construction_time (project : Project)
    (w0 w1 : World DB) (self : SchemaTester) (rs : list RunModelResult)
    (rows : list ResultRow.t) :
  __init__ project w0 = (Ret self, w1) ->
  result_rows self rs = Ret rows ->
  ticks w1 = S (ticks w0)
  /\ Forall (fun a => ResultRow.tested_at a = now w0 (ticks w0)) rows.
Proof.
  intros Hinit Hrows. rewrite init_reads_clock_once in Hinit.
  inversion Hinit; subst. split; [reflexivity|].
  pose proof (result_rows_Forall2 _ rs rows Hrows) as HF. clear Hrows.
  induction HF as [|res a rs' rows' Ha _ IH]; constructor; [|exact IH].
  apply result_row_inv in Ha. destruct Ha as [n [_ ->]]. reflexivity.
Qed.

End RecorderRuns.

(** ** Properties of the other assertion queries *)

Lemma filter_nil_iff {A : Type} (f : A -> bool) (l : list A) :
  filter f l = [] <-> forall x, In x l -> f x = false.
Proof.
  induction l as [|a l IH]; cbn [filter].
  - split; [intros _ x []|reflexivity].
  - destruct (f a) eqn:Fa.
    + split; [discriminate|]. intros H.
      rewrite (H a (or_introl eq_refl)) in Fa. discriminate.
    + rewrite IH. split.
      * intros H x [<-|Hx]; [assumption|now apply H].
      * intros H x Hx. apply H. now right.
Qed.

Lemma length_zero_iff {A : Type} (l : list A) :
  Z.of_nat (length l) = 0 <-> l = [].
Proof.
  destruct l; cbn [length]; split; intros H; try reflexivity;
    try discriminate; lia.
Qed.


(** [NULL in (...)] is never true, and unknown when the list is not empty. *)
Lemma in3_null (ys : list Sql.value) :
  ys <> [] -> Sql.in3 None ys = Sql.UNKNOWN.
Proof.
  assert (H : Sql.in3 None ys
              = match ys with [] => Sql.FALSE | _ :: _ => Sql.UNKNOWN end).
  { induction ys as [|y ys IH]; [reflexivity|].
    cbn [Sql.in3 fold_right]. fold (Sql.in3 None ys). rewrite IH.
    destruct ys; reflexivity. }
  rewrite H. destruct ys; [congruence|reflexivity].
Qed.

(** X12.  The not-null query returns the number of rows whose field is NULL;
    it returns 0 exactly when the column holds no NULL. *)
Theorem not_null_count_zero_iff (column : list Sql.value) :
  not_null_count column = Z.of_nat (count_occ value_eq_dec column None)
  /\ (not_null_count column = 0 <-> ~ In None column).
Proof.
  assert (E : not_null_count column
              = Z.of_nat (count_occ value_eq_dec column None)).
  { unfold not_null_count. f_equal.
    induction column as [|[x|] column IH]; cbn [filter is_null Sql.keeps].
    - reflexivity.
    - rewrite count_occ_cons_neq by discriminate. exact IH.
    - rewrite count_occ_cons_eq by reflexivity. cbn [length]. now f_equal. }
  split; [exact E|]. rewrite E.
  rewrite (count_occ_not_In value_eq_dec). lia.
Qed.

(** X13.  The unique query returns 0 exactly when no value occurs twice in
    the column, NULL counting as a value like any other: two rows with a
    NULL field are reported as a duplicate. *)
Theorem unique_count_zero_iff (column : list Sql.value) :
  unique_count column = 0 <-> NoDup column.
Proof.
  unfold unique_count. rewrite length_zero_iff, filter_nil_iff.
  rewrite (NoDup_count_occ value_eq_dec). split.
  - intros H x. destruct (in_dec value_eq_dec x column) as [Hin|Hout].
    + specialize (H x (proj2 (nodup_In value_eq_dec column x) Hin)).
      apply Nat.ltb_ge in H. exact H.
    + apply (count_occ_not_In value_eq_dec) in Hout. lia.
  - intros H x _. apply Nat.ltb_ge. apply H.
Qed.


(** X15.  With a non-empty list of accepted values that holds no NULL, the
    accepted-values query returns 0 exactly when every non-null value of the
    column is accepted; NULL values of the column are not reported. *)
Theorem accepted_values_count_zero_iff (column accepted : list Sql.value) :
  accepted <> [] ->
  Forall (fun p => p <> None) accepted ->
  (accepted_values_count column accepted = 0
   <-> forall x, In (Some x) column -> In (Some x) accepted).
Proof.
  intros Hne Hnn. unfold accepted_values_count.
  rewrite length_zero_iff, filter_nil_iff.
  assert (Hsome : forall x,
             Sql.keeps (Sql.not3 (Sql.in3 (Some x) accepted)) = false
             <-> In (Some x) accepted).
  { intros x. rewrite (in3_without_null x accepted Hnn).
    destruct (existsb (holds_value x) accepted) eqn:E; cbn.
    - split; [intros _|reflexivity].
      apply existsb_exists in E. destruct E as ([y|] & Hin & Hy);
        [|discriminate].
      cbn in Hy. apply Z.eqb_eq in Hy. now subst.
    - split; [discriminate|]. intros Hin.
      assert (existsb (holds_value x) accepted = true).
      { apply existsb_exists. exists (Some x). split; [assumption|].
        cbn. apply Z.eqb_refl. }
      congruence. }
  split.
  - intros H x Hin. apply Hsome. apply H. now apply nodup_In.
  - intros H [x|] Hin.
    + apply Hsome. apply H. now apply (nodup_In value_eq_dec column).
    + rewrite (in3_null accepted Hne). reflexivity.
Qed.

(** X16.  When the list of accepted values holds a NULL, the accepted-values
    query returns 0 whatever the column holds. *)
Theorem accepted_values_blind_with_null (column accepted : list Sql.value) :
  In None accepted -> accepted_values_count column accepted = 0.
Proof.
  intros Hin. unfold accepted_values_count.
  apply length_zero_iff, filter_nil_iff. intros f _.
  pose proof (in3_with_null f accepted Hin) as Hf.
  destruct (Sql.in3 f accepted); try reflexivity. congruence.
Qed.

(** X17.  A further row adds nothing to the result of the accepted-values
    query when its value is NULL or already occurs in the column: values are
    counted once, and NULL never. *)
Theorem accepted_values_ignores_null_and_repeats
    (x : Sql.value) (column accepted : list Sql.value) :
  accepted <> [] ->
  x = None \/ In x column ->
  accepted_values_count (x :: column) accepted
  = accepted_values_count column accepted.
Proof.
  intros Hne Hx. unfold accepted_values_count. cbn [nodup].
  destruct (in_dec value_eq_dec x column) as [Hin|Hout]; [reflexivity|].
  destruct Hx as [->|Hin]; [|contradiction].
  cbn [filter]. rewrite (in3_null accepted Hne). reflexivity.
Qed.

(** ** Concrete runs for the further properties *)


Lemma execute_query_no_row_witness :
  fst (execute_query (journal_execute (respond_rows [])) sample_tester
         (PObj "orders") "select n from counts where false"
         (journal_world (linear_clock 0 1)))
  = Raise (new_exn (TypeError "object of type 'NoneType' has no len()")).
Proof.
  apply (execute_query_no_row (journal_execute (respond_rows []))
           sample_tester (PObj "orders") "select n from counts where false"
           (journal_world (linear_clock 0 1))
           ["select n from counts where false"] "SELECT").
  reflexivity.
Defined.

Lemma execute_query_wrong_width_witness :
  fst (execute_query (journal_execute (respond_rows [[PInt 1; PInt 2]]))
         sample_tester (PObj "orders") "select 1, 2"
         (journal_world (linear_clock 0 1)))
  = Raise (new_exn
             (RuntimeError
                "Unexpected validation result. Expected 1 record, got 2")).
Proof.
  apply (execute_query_wrong_width
           (journal_execute (respond_rows [[PInt 1; PInt 2]]))
           sample_tester (PObj "orders") "select 1, 2"
           (journal_world (linear_clock 0 1)) ["select 1, 2"]
           [PInt 1; PInt 2] [] "SELECT").
  - reflexivity.
  - cbn [length]. discriminate.
Defined.

Lemma programming_error_does_not_stop_next_witness :
  let eng :=
    journal_execute
      (respond_reject "select broken"
         (ProgrammingError {| message_primary := PStr "syntax error" |})
         [[PInt 0]]) in
  let w := journal_world (linear_clock 0 1) in
  let both :=
    bind (execute_query eng sample_tester (PObj "orders") "select broken")
         (fun _ => execute_query eng sample_tester (PObj "payments") "select 0")
         w in
  let w1 :=
    snd (execute_query eng sample_tester (PObj "orders") "select broken" w) in
  both = execute_query eng sample_tester (PObj "payments") "select 0" w1
  /\ db w1 = []
  /\ executed (trace (snd both))
     = (executed (trace w) ++ ["select broken"; "select 0"])%list
  /\ db (snd both) = fst (eng [] "select 0").
Proof.
  apply (programming_error_does_not_stop_next
           (journal_execute
              (respond_reject "select broken"
                 (ProgrammingError {| message_primary := PStr "syntax error" |})
                 [[PInt 0]]))
           sample_tester (PObj "orders") (PObj "payments")
           "select broken" "select 0" (journal_world (linear_clock 0 1)) []
           {| message_primary := PStr "syntax error" |}).
  reflexivity.
Defined.

Lemma validate_schema_if_model_bound_witness :
  exists w',
    validate_schema (journal_execute (respond_rows [[PInt 0]])) sample_tester
      {| render := "select 0" |} (bound_model_world (linear_clock 0 1))
    = (Ret tt, w')
    /\ yields (trace w')
       = (yields (trace (bound_model_world (linear_clock 0 1)))
          ++ [py_eq_zero (PInt 0)])%list.
Proof.
  apply (validate_schema_if_model_bound
           (journal_execute (respond_rows [[PInt 0]])) sample_tester
           {| render := "select 0" |} (bound_model_world (linear_clock 0 1))
           ["select 0"] (PInt 0) [] "SELECT"); reflexivity.
Defined.

Lemma validate_schema_reports_programming_error_as_failed_witness :
  exists w',
    validate_schema
      (journal_execute
         (respond_raise
            (ProgrammingError
               {| message_primary := PStr "relation orders does not exist" |})))
      sample_tester {| render := "select count(1) from orders" |}
      (bound_model_world (linear_clock 0 1))
    = (Ret tt, w')
    /\ yields (trace w')
       = (yields (trace (bound_model_world (linear_clock 0 1))) ++ [false])%list
    /\ prints (trace w')
       = (prints (trace (bound_model_world (linear_clock 0 1)))
          ++ [("  FAILED (" ++ "relation orders does not exist" ++ ")")%string])%list.
Proof.
  apply (validate_schema_reports_programming_error_as_failed
           (journal_execute
              (respond_raise
                 (ProgrammingError
                    {| message_primary :=
                         PStr "relation orders does not exist" |})))
           sample_tester {| render := "select count(1) from orders" |}
           (bound_model_world (linear_clock 0 1)) []
           "relation orders does not exist"); reflexivity.
Defined.

Lemma insert_test_results_empty_run_witness :
  executed
    (trace (snd (insert_test_results (journal_execute (respond_rows []))
                   sample_tester [] (journal_world (linear_clock 0 1)))))
  = (executed (trace (journal_world (linear_clock 0 1)))
     ++ [ DDL_TEST_RESULT_CREATE "analytics";
          INSERT_TEST_RESULT_TEMPLATE "" "analytics" ])%list.
Proof.
  apply (insert_test_results_empty_run (journal_execute (respond_rows []))
           sample_tester (journal_world (linear_clock 0 1))).
  reflexivity.
Defined.

Lemma tested_at_is_construction_time_witness :
  ticks (advance (journal_world (linear_clock 0 1)) [] 1
           [EvNow {| datetime_str := "2016-03-01 12:00:00" |}])
  = S (ticks (journal_world (linear_clock 0 1)))
  /\ Forall (fun a => ResultRow.tested_at a
                      = now (journal_world (linear_clock 0 1))
                            (ticks (journal_world (linear_clock 0 1))))
       sample_rows.
Proof.
  apply (tested_at_is_construction_time
           (project sample_tester) (journal_world (linear_clock 0 1))
           (advance (journal_world (linear_clock 0 1)) [] 1
              [EvNow {| datetime_str := "2016-03-01 12:00:00" |}])
           sample_tester sample_run sample_rows); reflexivity.
Defined.

Lemma accepted_values_count_zero_iff_witness :
  accepted_values_count [Some 1; None; Some 2; Some 1] [Some 1; Some 2] = 0
  <-> forall x,
        In (Some x) [Some 1; None; Some 2; Some 1] ->
        In (Some x) [Some 1; Some 2].
Proof.
  apply (accepted_values_count_zero_iff
           [Some 1; None; Some 2; Some 1] [Some 1; Some 2]).
  - discriminate.
  - repeat constructor; discriminate.
Defined.

Lemma accepted_values_blind_with_null_witness :
  accepted_values_count [Some 1; Some 7] [Some 1; None] = 0.
Proof.
  apply (accepted_values_blind_with_null [Some 1; Some 7] [Some 1; None]).
  right. left. reflexivity.
Defined.

Lemma accepted_values_ignores_null_and_repeats_witness :
  accepted_values_count [None; Some 7; Some 1] [Some 1; Some 2]
  = accepted_values_count [Some 7; Some 1] [Some 1; Some 2].
Proof.
  apply (accepted_values_ignores_null_and_repeats
           None [Some 7; Some 1] [Some 1; Some 2]).
  - discriminate.
  - left. reflexivity.
Defined.

Lemma referential_integrity_exact_without_null_witness :
  referential_integrity_count [Some 1; Some 2] [Some 2; Some 3; None]
  = spec_referential_violations [Some 1; Some 2] [Some 2; Some 3; None].
Proof.
  apply (referential_integrity_exact_without_null
           [Some 1; Some 2] [Some 2; Some 3; None]).
  repeat constructor; discriminate.
Defined.

Lemma referential_integrity_blind_with_null_parent_witness :
  referential_integrity_count [Some 1; None] [Some 2; Some 3] = 0.
Proof.
  apply (referential_integrity_blind_with_null_parent
           [Some 1; None] [Some 2; Some 3]).
  right. left. reflexivity.
Defined.
